(** * Filesystem labeling applications (blivet/formats/fslabel.py)

    A shallow embedding of the classes [FSLabelApp], [E2Label], [DosFsLabel],
    [JFSTune], [ReiserFSTune] and [XFSAdmin], with the part of the Python
    runtime they rely on: exceptions, global name lookup, attribute reads,
    [%]-formatting, string containment and [re.match]. *)

From Stdlib Require Import String Ascii List Bool Arith Lia.
Import ListNotations.
Open Scope string_scope.

(** ** Characters that cannot be written inside a string literal *)

Definition dquote : ascii := "034"%char.
Definition newline : ascii := "010"%char.

(** ** Python [str] operations used by the module *)

(** [bool(s)] for a [str]: only the empty string is falsy. *)
Definition truthy (s : string) : bool :=
  match s with
  | EmptyString => false
  | String _ _ => true
  end.

(** [sub in s]: substring containment. *)
Fixpoint str_contains (sub s : string) : bool :=
  prefix sub s ||
  match s with
  | EmptyString => false
  | String _ s' => str_contains sub s'
  end.

(** [fmt % arg] for a format with a single [%s] conversion. *)
Fixpoint format_s (fmt arg : string) : string :=
  match fmt with
  | String "%" (String "s" rest) => arg ++ rest
  | String c rest => String c (format_s rest arg)
  | EmptyString => EmptyString
  end.

(** ** Regular expressions: the fragment of [re] the module uses *)

Module Re.

(** A one-character item: a literal, or [.] which (no DOTALL flag) matches
    anything but a newline. *)
Inductive item : Type :=
| Lit (c : ascii)
| Dot.

Definition item_matches (i : item) (c : ascii) : bool :=
  match i with
  | Lit a => Ascii.eqb a c
  | Dot => negb (Ascii.eqb c newline)
  end.

Inductive regex : Type :=
| Eps
| One (i : item)
| Star (i : item)                      (* greedy [i*] *)
| Seq (r1 r2 : regex)
| Group (name : string) (r : regex).   (* the named group [(?P<name> r )] *)

(** A run of literal characters. *)
Fixpoint lit (s : string) : regex :=
  match s with
  | EmptyString => Eps
  | String c s' => Seq (One (Lit c)) (lit s')
  end.

(** The captures of a match, by group name. *)
Definition groups : Type := list (string * string).

(** The text between the place where the remaining input was [s] and the
    place where it is [s']. *)
Definition consumed (s s' : string) : string :=
  substring 0 (String.length s - String.length s') s.

(** Greedy repetition with backtracking: take as many characters as
    match, and give characters back one at a time while the rest of the
    pattern (the continuation [k]) fails. *)
Fixpoint star {R : Type} (p : ascii -> bool) (s : string)
         (k : string -> option R) : option R :=
  match s with
  | String c s' =>
      if p c then
        match star p s' k with
        | Some r => Some r
        | None => k s
        end
      else k s
  | EmptyString => k s
  end.

(** The backtracking matcher, in continuation-passing style: [s] is the
    input that remains, [g] the groups closed so far. *)
Fixpoint exec (r : regex) (s : string) (g : groups)
         (k : string -> groups -> option groups) : option groups :=
  match r with
  | Eps => k s g
  | One i =>
      match s with
      | String c s' => if item_matches i c then k s' g else None
      | EmptyString => None
      end
  | Star i => star (item_matches i) s (fun s' => k s' g)
  | Seq r1 r2 => exec r1 s g (fun s' g' => exec r2 s' g' k)
  | Group name r1 =>
      exec r1 s g (fun s' g' => k s' ((name, consumed s s') :: g'))
  end.

(** [re.match(pattern, string)]: the pattern must match at the start of
    the string; it need not reach its end. *)
Definition match_ (r : regex) (s : string) : option groups :=
  exec r s [] (fun _ g => Some g).

(** [m.group(name)]. *)
Fixpoint group (m : groups) (name : string) : option string :=
  match m with
  | [] => None
  | (n, v) :: m' => if String.eqb n name then Some v else group m' name
  end.

End Re.

(** ** Exceptions, results and the state the methods run in *)

Inductive exn : Type :=
| NameError (name : string)          (* an unbound global name *)
| Exc (cls : string) (msg : string). (* an instance of the class [cls] *)

Inductive result (A : Type) : Type :=
| Return (a : A)
| Raise (e : exn).
Arguments Return {A} a.
Arguments Raise {A} e.

(** The five concrete classes. *)
Inductive app : Type :=
| E2Label
| DosFsLabel
| JFSTune
| ReiserFSTune
| XFSAdmin.

(** The filesystem object handed in by the caller; the module only reads
    [fs.device] and [fs.label]. *)
Record FS : Type := mkFS { device : string; label : string }.

(** The mutable state the methods can see: the [_name] attribute of each
    class. *)
Definition heap : Type := app -> string.

(** The class bodies. *)
Definition initial_heap : heap :=
  fun a =>
    match a with
    | E2Label => "e2label"
    | DosFsLabel => "dosfslabel"
    | JFSTune => "jfs_tune"
    | ReiserFSTune => "reiserfstune"
    | XFSAdmin => "xfs_admin"
    end.

(** Computations: read and possibly change the heap, return or raise. *)
Definition M (A : Type) : Type := heap -> result A * heap.

Definition ret {A : Type} (a : A) : M A := fun h => (Return a, h).

Definition bind {A B : Type} (m : M A) (f : A -> M B) : M B :=
  fun h =>
    match m h with
    | (Return a, h') => f a h'
    | (Raise e, h') => (Raise e, h')
    end.

Notation "x <- m ;; k" := (bind m (fun x => k))
  (at level 61, m at next level, right associativity).

Definition getattr_name (self : app) : M string := fun h => (Return (h self), h).

(** The names bound at module level by the file: its two imports and its
    six classes. *)
Definition module_globals : list string :=
  ["abc"; "re"; "FSLabelApp"; "E2Label"; "DosFsLabel"; "JFSTune";
   "ReiserFSTune"; "XFSAdmin"].

(** The built-in names the file refers to. *)
Definition builtins : list string :=
  ["object"; "property"; "len"; "NotImplementedError"; "ValueError"].

Definition bound (name : string) : bool :=
  existsb (String.eqb name) (module_globals ++ builtins).

(** [raise cls(arg)]: the name [cls] is looked up first, then the argument
    is evaluated, then the instance is raised. *)
Definition raise_call {A : Type} (cls : string) (arg : M string) : M A :=
  if bound cls then
    fun h =>
      match arg h with
      | (Return msg, h') => (Raise (Exc cls msg), h')
      | (Raise e, h') => (Raise e, h')
      end
  else fun h => (Raise (NameError cls), h).

(** [raise cls]. *)
Definition raise_class {A : Type} (cls : string) : M A :=
  raise_call cls (ret "").

(** The result of a computation started in the state the class bodies set
    up. *)
Definition run {A : Type} (m : M A) : result A := fst (m initial_heap).

(** ** class FSLabelApp and its subclasses *)

Definition name (self : app) : M string := getattr_name self.

Definition reads (self : app) : M bool :=
  match self with
  | E2Label => ret true
  | DosFsLabel => ret true
  | JFSTune => ret false
  | ReiserFSTune => ret false
  | XFSAdmin => ret true
  end.

Definition unsetsLabel (self : app) : M bool :=
  match self with
  | E2Label => ret true
  | DosFsLabel => ret true
  | JFSTune => ret true
  | ReiserFSTune => ret true
  | XFSAdmin => ret false
  end.

Definition labelFormatOK (self : app) (lbl : string) : M bool :=
  match self with
  | E2Label => ret (String.length lbl <? 17)%nat
  | DosFsLabel => ret (String.length lbl <? 12)%nat
  | JFSTune => ret (String.length lbl <? 17)%nat
  | ReiserFSTune => ret (String.length lbl <? 17)%nat
  | XFSAdmin => ret (negb (str_contains " " lbl) && (String.length lbl <? 13)%nat)
  end.

Definition _writeLabelArgs (self : app) (fs : FS) : M (list string) :=
  match self with
  | E2Label =>
      if truthy (label fs) then ret [device fs; label fs]
      else ret [device fs; ""]
  | DosFsLabel =>
      if truthy (label fs) then ret [device fs; label fs]
      else ret [device fs; ""]
  | JFSTune =>
      if truthy (label fs) then ret ["-L"; label fs; device fs]
      else ret ["-L"; ""; device fs]
  | ReiserFSTune =>
      if truthy (label fs) then ret ["-l"; label fs; device fs]
      else ret ["-l"; ""; device fs]
  | XFSAdmin =>
      if truthy (label fs) then ret ["-L"; label fs; device fs]
      else raise_call "ValueError"
             (n <- name self ;; ret (format_s "%s cannot set an empty label." n))
  end.

Definition setLabelCommand (self : app) (fs : FS) : M (list string) :=
  n <- name self ;;
  args <- _writeLabelArgs self fs ;;
  ret ([n] ++ args)%list.

Definition _readLabelArgs (self : app) (fs : FS) : M (list string) :=
  match self with
  | E2Label => ret [device fs]
  | DosFsLabel => ret [device fs]
  | JFSTune => raise_class "NotImplementedError"
  | ReiserFSTune => raise_class "NotImplementedError"
  | XFSAdmin => ret ["-l"; device fs]
  end.

Definition readLabelCommand (self : app) (fs : FS) : M (list string) :=
  r <- reads self ;;
  if negb r then
    raise_call "FSError"
      (n <- name self ;;
       ret (format_s "Application %s can not read the filesystem label." n))
  else
    n <- name self ;;
    args <- _readLabelArgs self fs ;;
    ret ([n] ++ args)%list.

(** The pattern of [E2Label] and [DosFsLabel]: the named group [label]
    around the greedy [.*]. *)
Definition whole_line_regex : Re.regex := Re.Group "label" (Re.Star Re.Dot).

(** The pattern of [XFSAdmin]: the text "label = ", a double quote, the named
    group [label] around the greedy [.*], and a double quote. *)
Definition xfs_regex : Re.regex :=
  Re.Seq (Re.lit "label = ")
    (Re.Seq (Re.One (Re.Lit dquote))
       (Re.Seq (Re.Group "label" (Re.Star Re.Dot)) (Re.One (Re.Lit dquote)))).

Definition _labelstrRegex (self : app) : M Re.regex :=
  match self with
  | E2Label => ret whole_line_regex
  | DosFsLabel => ret whole_line_regex
  | JFSTune => raise_class "NotImplementedError"
  | ReiserFSTune => raise_class "NotImplementedError"
  | XFSAdmin => ret xfs_regex
  end.

Definition extractLabel (self : app) (labelstr : string) : M string :=
  r <- reads self ;;
  if negb r then
    raise_call "FSError"
      (n <- name self ;; ret (format_s "Unknown format for application %s" n))
  else
    rx <- _labelstrRegex self ;;
    match Re.match_ rx labelstr with
    | None =>
        raise_call "FSError"
          (n <- name self ;; ret (format_s "Unknown format for application %s" n))
    | Some m =>
        match Re.group m "label" with
        | Some v => ret v
        | None => fun h => (Raise (Exc "IndexError" "no such group"), h)
        end
    end.


(** ** Text functions used to state what the patterns capture *)

(** Does the character [c] occur in [s]? *)
Fixpoint has (c : ascii) (s : string) : bool :=
  match s with
  | EmptyString => false
  | String a s' => Ascii.eqb a c || has c s'
  end.

(** The text of [s] before its first newline (all of [s] if it has none). *)
Fixpoint first_line (s : string) : string :=
  match s with
  | EmptyString => EmptyString
  | String c s' => if Ascii.eqb c newline then EmptyString else String c (first_line s')
  end.

(** The text of the first line of [s] before the last double quote of that
    line, if the line has one. *)
Fixpoint before_last_quote (s : string) : option string :=
  match s with
  | EmptyString => None
  | String c s' =>
      if Ascii.eqb c newline then None
      else
        match before_last_quote s' with
        | Some l => Some (String c l)
        | None => if Ascii.eqb c dquote then Some EmptyString else None
        end
  end.

(** The opening text of the [XFSAdmin] pattern. *)
Definition xfs_opening : string := "label = " ++ String dquote "".

(** [s] without the opening text [a], if it starts with it. *)
Fixpoint strip_prefix (a s : string) : option string :=
  match a with
  | EmptyString => Some s
  | String x a' =>
      match s with
      | String c s' => if Ascii.eqb x c then strip_prefix a' s' else None
      | EmptyString => None
      end
  end.

(** ** Properties of computations *)

(** [m] is a total test for [P] that neither reads nor changes the state. *)
Definition decides (m : M bool) (P : Prop) : Prop :=
  exists b : bool, (forall h, m h = (Return b, h)) /\ (b = true <-> P).

(** Calling [m] twice in a row gives the same outcome twice and leaves the
    state as it was. *)
Definition repeatable {A : Type} (m : M A) : Prop :=
  forall h,
    let (r1, h1) := m h in
    let (r2, h2) := m h1 in
    r1 = r2 /\ h1 = h /\ h2 = h.

(** What can be observed of a class in a given state: its [name], [reads],
    [unsetsLabel], its pattern and its verdict on a label. *)
Definition observe (a : app) (lbl : string) (h : heap) :=
  (fst (name a h), fst (reads a h), fst (unsetsLabel a h),
   fst (_labelstrRegex a h), fst (labelFormatOK a lbl h)).

(** ** Sample inputs *)

Definition sda1_vol1 : FS := mkFS "/dev/sda1" "vol1".
Definition sda1_unlabelled : FS := mkFS "/dev/sda1" "".

(** The line [xfs_admin -l] prints for the label vol1. *)
Definition xfs_vol1_output : string := xfs_opening ++ "vol1" ++ String dquote "".

(** ** Facts about strings *)

Lemma append_nil_r (s : string) : s ++ "" = s.
Proof. induction s as [|c s IH]; simpl; [reflexivity | now rewrite IH]. Qed.

Lemma append_assoc (a b c : string) : (a ++ b) ++ c = a ++ (b ++ c).
Proof. induction a as [|x a IH]; simpl; [reflexivity | now rewrite IH]. Qed.

Lemma length_app (a b : string) :
  String.length (a ++ b) = String.length a + String.length b.
Proof. induction a as [|x a IH]; simpl; [reflexivity | now rewrite IH]. Qed.

Lemma substring_0_0 (s : string) : substring 0 0 s = "".
Proof. destruct s; reflexivity. Qed.

Lemma substring_app_l (a s : string) : substring 0 (String.length a) (a ++ s) = a.
Proof.
  induction a as [|x a IH]; simpl.
  - apply substring_0_0.
  - now rewrite IH.
Qed.

Lemma consumed_app (a s : string) : Re.consumed (a ++ s) s = a.
Proof.
  unfold Re.consumed. rewrite length_app.
  replace (String.length a + String.length s - String.length s)
    with (String.length a) by lia.
  apply substring_app_l.
Qed.

Lemma has_app (c : ascii) (a b : string) : has c (a ++ b) = has c a || has c b.
Proof.
  induction a as [|x a IH]; simpl; [reflexivity|].
  now rewrite IH, orb_assoc.
Qed.

Lemma has_false_first_line (s : string) :
  has newline s = false -> first_line s = s.
Proof.
  induction s as [|c s IH]; simpl; [reflexivity|].
  intros H. apply orb_false_iff in H as [Hc Hs].
  rewrite Hc. now rewrite IH.
Qed.

Lemma first_line_no_newline (s : string) : has newline (first_line s) = false.
Proof.
  induction s as [|c s IH]; simpl; [reflexivity|].
  destruct (Ascii.eqb c newline) eqn:E; simpl; [reflexivity|].
  now rewrite E.
Qed.

Lemma first_line_app (l t : string) :
  has newline l = false -> first_line (l ++ t) = l ++ first_line t.
Proof.
  induction l as [|c l IH]; simpl; [reflexivity|].
  intros H. apply orb_false_iff in H as [Hc Hl].
  rewrite Hc. now rewrite IH.
Qed.

Lemma str_contains_space (s : string) : str_contains " " s = has " "%char s.
Proof.
  induction s as [|c s IH]; [reflexivity|].
  cbn [str_contains has prefix]. rewrite IH.
  destruct (ascii_dec " " c) as [<-|n].
  - simpl. now destruct s.
  - destruct (Ascii.eqb c " ") eqn:E.
    + apply Ascii.eqb_eq in E. now subst.
    + reflexivity.
Qed.

Lemma has_In (c : ascii) (s : string) :
  has c s = true <-> In c (list_ascii_of_string s).
Proof.
  induction s as [|a s IH]; simpl.
  - split; [discriminate | tauto].
  - rewrite orb_true_iff, Ascii.eqb_eq, IH. tauto.
Qed.

Lemma strip_prefix_Some (a s t : string) :
  strip_prefix a s = Some t <-> s = a ++ t.
Proof.
  revert s. induction a as [|x a IH]; intros s; simpl.
  - split; [now intros [= ->] | now intros ->].
  - destruct s as [|c s]; [split; discriminate|].
    destruct (Ascii.eqb x c) eqn:E.
    + apply Ascii.eqb_eq in E. subst c. rewrite IH.
      split; [now intros -> | now intros [= ->]].
    + apply Ascii.eqb_neq in E. split; [discriminate | intros [= ? ?]; congruence].
Qed.

Lemma strip_prefix_app (a t : string) : strip_prefix a (a ++ t) = Some t.
Proof. now apply strip_prefix_Some. Qed.

Lemma strip_prefix_append (a b s : string) :
  strip_prefix (a ++ b) s =
  match strip_prefix a s with
  | Some u => strip_prefix b u
  | None => None
  end.
Proof.
  revert s. induction a as [|x a IH]; intros s; simpl; [reflexivity|].
  destruct s as [|c s]; [reflexivity|].
  destruct (Ascii.eqb x c); [apply IH | reflexivity].
Qed.

(** ** Facts about the matcher *)

Lemma exec_lit (a s : string) (g : Re.groups) k :
  Re.exec (Re.lit a) s g k =
  match strip_prefix a s with
  | Some s' => k s' g
  | None => None
  end.
Proof.
  revert s. induction a as [|x a IH]; intros s; simpl; [reflexivity|].
  destruct s as [|c s]; [reflexivity|].
  destruct (Ascii.eqb x c); [apply IH | reflexivity].
Qed.

(** A greedy [.*] followed by nothing that can fail stops at the end of the
    line. *)
Lemma star_dot_line {R : Type} (f : string -> R) (t pre : string) :
  Re.star (Re.item_matches Re.Dot) t
    (fun s' => Some (f (Re.consumed (pre ++ t) s')))
  = Some (f (pre ++ first_line t)).
Proof.
  revert pre. induction t as [|c t IH]; intros pre; simpl.
  - now rewrite consumed_app, append_nil_r.
  - destruct (Ascii.eqb c newline) eqn:E; simpl.
    + now rewrite consumed_app, append_nil_r.
    + replace (pre ++ String c t) with ((pre ++ String c "") ++ t)
        by (now rewrite append_assoc).
      rewrite IH. now rewrite append_assoc.
Qed.

(** A greedy [.*] followed by a double quote stops before the last double
    quote of the line. *)
Lemma star_dot_quote (t pre : string) :
  Re.star (Re.item_matches Re.Dot) t
    (fun s' =>
       Re.exec (Re.One (Re.Lit dquote)) s' [("label", Re.consumed (pre ++ t) s')]
         (fun _ g => Some g))
  = option_map (fun l => [("label", pre ++ l)]) (before_last_quote t).
Proof.
  revert pre. induction t as [|c t IH]; intros pre; [reflexivity|].
  cbn [Re.star before_last_quote Re.item_matches].
  destruct (Ascii.eqb c newline) eqn:E; cbn [negb].
  - apply Ascii.eqb_eq in E. subst c. reflexivity.
  - replace (pre ++ String c t) with ((pre ++ String c "") ++ t)
      by (now rewrite append_assoc).
    rewrite IH.
    destruct (before_last_quote t) as [l|]; cbn [option_map].
    + now rewrite append_assoc.
    + rewrite append_assoc. cbn [Re.exec Re.item_matches append].
      rewrite (Ascii.eqb_sym dquote c).
      destruct (Ascii.eqb c dquote); cbn [option_map]; [|reflexivity].
      now rewrite consumed_app, append_nil_r.
Qed.

Lemma whole_line_match (s : string) :
  Re.match_ whole_line_regex s = Some [("label", first_line s)].
Proof.
  unfold Re.match_, whole_line_regex. simpl.
  exact (star_dot_line (fun l => [("label", l)]) s "").
Qed.

Lemma xfs_match (s : string) :
  Re.match_ xfs_regex s =
  match strip_prefix xfs_opening s with
  | Some t => option_map (fun l => [("label", l)]) (before_last_quote t)
  | None => None
  end.
Proof.
  unfold Re.match_, xfs_regex, xfs_opening.
  cbn [Re.exec]. rewrite exec_lit, strip_prefix_append.
  destruct (strip_prefix "label = " s) as [u|]; [|reflexivity].
  destruct u as [|c t]; [reflexivity|].
  cbn [strip_prefix Re.item_matches].
  destruct (Ascii.eqb dquote c); [|reflexivity].
  exact (star_dot_quote t "").
Qed.

(** ** What [before_last_quote] computes *)

Lemma before_last_quote_None (t : string) :
  before_last_quote t = None <-> has dquote (first_line t) = false.
Proof.
  induction t as [|c t IH]; simpl; [tauto|].
  destruct (Ascii.eqb c newline) eqn:E; simpl; [tauto|].
  destruct (before_last_quote t) as [l|].
  - split; [discriminate|].
    intros H. apply orb_false_iff in H as [_ H]. now apply IH in H.
  - destruct (Ascii.eqb c dquote); simpl; [split; discriminate|].
    split; [intros _; now apply IH | reflexivity].
Qed.

Lemma before_last_quote_Some (t l : string) :
  before_last_quote t = Some l <->
  exists tail,
    t = l ++ String dquote tail /\
    has newline l = false /\
    has dquote (first_line tail) = false.
Proof.
  split.
  - revert l. induction t as [|c t IH]; intros l; simpl; [discriminate|].
    destruct (Ascii.eqb c newline) eqn:E; [discriminate|].
    destruct (before_last_quote t) as [l'|] eqn:B.
    + intros [= <-]. destruct (IH l' eq_refl) as (tail & -> & Hn & Hq).
      exists tail. simpl. now rewrite E, Hn.
    + destruct (Ascii.eqb c dquote) eqn:Q; [|discriminate].
      intros [= <-]. apply Ascii.eqb_eq in Q. subst c.
      exists t. repeat split. now apply before_last_quote_None.
  - intros (tail & -> & Hn & Hq).
    induction l as [|c l IH]; simpl.
    + apply before_last_quote_None in Hq. now rewrite Hq.
    + simpl in Hn. apply orb_false_iff in Hn as [Hc Hl].
      rewrite Hc. now rewrite (IH Hl).
Qed.

Lemma before_last_quote_is_Some (t : string) :
  (exists l, before_last_quote t = Some l) <-> has dquote (first_line t) = true.
Proof.
  rewrite <- not_false_iff_true, <- before_last_quote_None.
  destruct (before_last_quote t) as [l|].
  - split; [discriminate | intros _; now exists l].
  - split; [intros [l H]; discriminate | congruence].
Qed.

(** ** The methods, evaluated in any state *)

Lemma extractLabel_whole_line (a : app) (s : string) (h : heap) :
  a = E2Label \/ a = DosFsLabel ->
  extractLabel a s h = (Return (first_line s), h).
Proof.
  intros [-> | ->];
    cbv [extractLabel bind reads ret _labelstrRegex negb];
    now rewrite whole_line_match.
Qed.

Lemma extractLabel_xfs (s : string) (h : heap) :
  extractLabel XFSAdmin s h =
  (match strip_prefix xfs_opening s with
   | Some t =>
       match before_last_quote t with
       | Some l => Return l
       | None => Raise (NameError "FSError")
       end
   | None => Raise (NameError "FSError")
   end, h).
Proof.
  cbv [extractLabel bind reads ret _labelstrRegex negb].
  rewrite xfs_match.
  destruct (strip_prefix xfs_opening s) as [t|]; [|reflexivity].
  destruct (before_last_quote t) as [l|]; reflexivity.
Qed.

Lemma extractLabel_unreadable (a : app) (s : string) (h : heap) :
  a = JFSTune \/ a = ReiserFSTune ->
  extractLabel a s h = (Raise (NameError "FSError"), h).
Proof. intros [-> | ->]; reflexivity. Qed.

(** [XFSAdmin.extractLabel] returns [l] exactly on the inputs that open with
    the text of the pattern, continue with [l] on the same line, and have
    their last double quote of that line right after [l]. *)
Lemma extractLabel_xfs_Return (s l : string) :
  run (extractLabel XFSAdmin s) = Return l <->
  exists tail,
    s = xfs_opening ++ l ++ String dquote tail /\
    has newline l = false /\
    has dquote (first_line tail) = false.
Proof.
  unfold run. rewrite extractLabel_xfs. cbn [fst].
  split.
  - destruct (strip_prefix xfs_opening s) as [t|] eqn:E; [|discriminate].
    apply strip_prefix_Some in E. subst s.
    destruct (before_last_quote t) as [l'|] eqn:B; [|discriminate].
    intros [= <-]. apply before_last_quote_Some in B as (tail & -> & Hn & Hq).
    now exists tail.
  - intros (tail & -> & Hn & Hq).
    rewrite strip_prefix_app.
    assert (B : before_last_quote (l ++ String dquote tail) = Some l)
      by (apply before_last_quote_Some; now exists tail).
    now rewrite B.
Qed.

Lemma extractLabel_xfs_Raise (s : string) :
  (forall l, run (extractLabel XFSAdmin s) <> Return l) ->
  run (extractLabel XFSAdmin s) = Raise (NameError "FSError").
Proof.
  unfold run. rewrite extractLabel_xfs. cbn [fst].
  destruct (strip_prefix xfs_opening s) as [t|]; [|reflexivity].
  destruct (before_last_quote t) as [l|]; [|reflexivity].
  intros H. now destruct (H l).
Qed.

(** [XFSAdmin.extractLabel] returns on exactly the inputs that open with the
    text of the pattern and have a double quote on the rest of that line. *)
Lemma extractLabel_xfs_succeeds (s : string) :
  (exists l, run (extractLabel XFSAdmin s) = Return l) <->
  exists rest,
    s = xfs_opening ++ rest /\ has dquote (first_line rest) = true.
Proof.
  unfold run. rewrite extractLabel_xfs. cbn [fst]. split.
  - intros [l H].
    destruct (strip_prefix xfs_opening s) as [t|] eqn:E; [|discriminate].
    apply strip_prefix_Some in E. exists t. split; [exact E|].
    apply before_last_quote_is_Some.
    destruct (before_last_quote t) as [l'|]; [now exists l' | discriminate].
  - intros (rest & -> & H). rewrite strip_prefix_app.
    apply before_last_quote_is_Some in H as [l H]. rewrite H. now exists l.
Qed.

(** ** The methods leave the state alone *)

Lemma repeatable_of_preserving {A : Type} (m : M A) :
  (forall h, snd (m h) = h) -> repeatable m.
Proof.
  intros H h. destruct (m h) as [r1 h1] eqn:E1.
  pose proof (H h) as Hh. rewrite E1 in Hh. cbn [snd] in Hh. subst h1.
  rewrite E1. auto.
Qed.

Lemma labelFormatOK_preserves (a : app) (L : string) (h : heap) :
  snd (labelFormatOK a L h) = h.
Proof. destruct a; reflexivity. Qed.

Lemma setLabelCommand_preserves (a : app) (fs : FS) (h : heap) :
  snd (setLabelCommand a fs h) = h.
Proof. destruct a, fs as [dev [|c lbl]]; reflexivity. Qed.

Lemma readLabelCommand_preserves (a : app) (fs : FS) (h : heap) :
  snd (readLabelCommand a fs h) = h.
Proof. destruct a; reflexivity. Qed.

Lemma extractLabel_preserves (a : app) (s : string) (h : heap) :
  snd (extractLabel a s h) = h.
Proof.
  destruct a.
  - now rewrite extractLabel_whole_line by auto.
  - now rewrite extractLabel_whole_line by auto.
  - now rewrite extractLabel_unreadable by auto.
  - now rewrite extractLabel_unreadable by auto.
  - now rewrite extractLabel_xfs.
Qed.

(** * The claims *)

(** C1. [setLabelCommand] returns the program name followed by the write
    arguments of the class.  With a non-empty label that is
    [e2label device label], [dosfslabel device label],
    [jfs_tune -L label device], [reiserfstune -l label device] and
    [xfs_admin -L label device]; with an empty label the first four
    give the same command with the empty string in the label's place. *)
Theorem C1_setLabelCommand (fs : FS) :
  (forall a args,
      run (_writeLabelArgs a fs) = Return args ->
      run (setLabelCommand a fs) = Return (initial_heap a :: args)) /\
  (label fs <> "" ->
   run (setLabelCommand E2Label fs) = Return ["e2label"; device fs; label fs] /\
   run (setLabelCommand DosFsLabel fs) = Return ["dosfslabel"; device fs; label fs] /\
   run (setLabelCommand JFSTune fs) = Return ["jfs_tune"; "-L"; label fs; device fs] /\
   run (setLabelCommand ReiserFSTune fs) = Return ["reiserfstune"; "-l"; label fs; device fs] /\
   run (setLabelCommand XFSAdmin fs) = Return ["xfs_admin"; "-L"; label fs; device fs]) /\
  (label fs = "" ->
   run (setLabelCommand E2Label fs) = Return ["e2label"; device fs; ""] /\
   run (setLabelCommand DosFsLabel fs) = Return ["dosfslabel"; device fs; ""] /\
   run (setLabelCommand JFSTune fs) = Return ["jfs_tune"; "-L"; ""; device fs] /\
   run (setLabelCommand ReiserFSTune fs) = Return ["reiserfstune"; "-l"; ""; device fs]).
Proof.
  destruct fs as [dev lbl]. cbn [label device].
  split; [|split].
  - intros a args. unfold run, setLabelCommand, bind, name, getattr_name.
    destruct (_writeLabelArgs a (mkFS dev lbl) initial_heap) as [[args'|e] h'];
      cbn [fst]; [|discriminate].
    now intros [= ->].
  - intros H. destruct lbl as [|c lbl]; [contradiction|].
    repeat split.
  - intros ->. repeat split.
Qed.

Lemma C1_setLabelCommand_witness :
  (label sda1_vol1 <> "" /\
   run (setLabelCommand E2Label sda1_vol1) = Return ["e2label"; "/dev/sda1"; "vol1"]) /\
  (label sda1_unlabelled = "" /\
   run (setLabelCommand JFSTune sda1_unlabelled) = Return ["jfs_tune"; "-L"; ""; "/dev/sda1"]) /\
  (run (_writeLabelArgs XFSAdmin sda1_vol1) = Return ["-L"; "vol1"; "/dev/sda1"] /\
   run (setLabelCommand XFSAdmin sda1_vol1) = Return ["xfs_admin"; "-L"; "vol1"; "/dev/sda1"]).
Proof.
  assert (Hne : label sda1_vol1 <> "") by (simpl; discriminate).
  assert (He : label sda1_unlabelled = "") by reflexivity.
  split; [|split].
  - split; [exact Hne|].
    exact (proj1 (proj1 (proj2 (C1_setLabelCommand sda1_vol1)) Hne)).
  - split; [exact He|].
    exact (proj1 (proj2 (proj2 (proj2 (proj2 (C1_setLabelCommand sda1_unlabelled)) He)))).
  - split; [reflexivity|].
    exact (proj1 (C1_setLabelCommand sda1_vol1) XFSAdmin _ eq_refl).
Defined.

(** C5. With an empty label, [XFSAdmin.setLabelCommand] raises the
    [ValueError] of its [_writeLabelArgs] (the refusal to set an empty
    label), while the other four classes return a command whose label
    argument is the empty string. *)
Theorem C5_empty_label (fs : FS) :
  label fs = "" ->
  run (setLabelCommand XFSAdmin fs)
    = Raise (Exc "ValueError" "xfs_admin cannot set an empty label.") /\
  run (setLabelCommand E2Label fs) = Return ["e2label"; device fs; ""] /\
  run (setLabelCommand DosFsLabel fs) = Return ["dosfslabel"; device fs; ""] /\
  run (setLabelCommand JFSTune fs) = Return ["jfs_tune"; "-L"; ""; device fs] /\
  run (setLabelCommand ReiserFSTune fs) = Return ["reiserfstune"; "-l"; ""; device fs].
Proof.
  destruct fs as [dev lbl]. cbn [label device]. intros ->. repeat split.
Qed.

Lemma C5_empty_label_witness :
  label sda1_unlabelled = "" /\
  run (setLabelCommand XFSAdmin sda1_unlabelled)
    = Raise (Exc "ValueError" "xfs_admin cannot set an empty label.") /\
  run (setLabelCommand E2Label sda1_unlabelled) = Return ["e2label"; "/dev/sda1"; ""].
Proof.
  split; [reflexivity|].
  pose proof (C5_empty_label sda1_unlabelled eq_refl) as (Hx & He & _).
  split; [exact Hx | exact He].
Defined.

(** C4. [labelFormatOK] is a total test on the label alone, independent of
    the state and leaving it alone: [E2Label], [JFSTune] and [ReiserFSTune]
    accept exactly the labels shorter than 17 characters, [DosFsLabel]
    those shorter than 12, and [XFSAdmin] those without a space and shorter
    than 13. *)
Theorem C4_labelFormatOK (L : string) :
  decides (labelFormatOK E2Label L) (String.length L < 17) /\
  decides (labelFormatOK JFSTune L) (String.length L < 17) /\
  decides (labelFormatOK ReiserFSTune L) (String.length L < 17) /\
  decides (labelFormatOK DosFsLabel L) (String.length L < 12) /\
  decides (labelFormatOK XFSAdmin L)
    (~ In " "%char (list_ascii_of_string L) /\ String.length L < 13).
Proof.
  unfold decides, labelFormatOK, ret.
  repeat split; try (eexists; split; [reflexivity | apply Nat.ltb_lt]).
  eexists; split; [reflexivity|].
  rewrite andb_true_iff, negb_true_iff, Nat.ltb_lt, str_contains_space.
  rewrite <- has_In, not_true_iff_false. reflexivity.
Qed.

(** C6, as the code has it. [E2Label.extractLabel] and
    [DosFsLabel.extractLabel] return the text of the input before its first
    newline, because [.] does not match a newline; the input comes back
    unchanged exactly when it holds no newline. *)
Theorem C6_extractLabel_first_line (s : string) :
  run (extractLabel E2Label s) = Return (first_line s) /\
  run (extractLabel DosFsLabel s) = Return (first_line s) /\
  (has newline s = false <->
   run (extractLabel E2Label s) = Return s /\
   run (extractLabel DosFsLabel s) = Return s).
Proof.
  unfold run.
  rewrite !extractLabel_whole_line by auto. cbn [fst].
  repeat split.
  - f_equal. now apply has_false_first_line.
  - f_equal. now apply has_false_first_line.
  - intros [[= H] _]. rewrite <- H. apply first_line_no_newline.
Qed.

Lemma C6_extractLabel_first_line_witness :
  has newline "myvolume" = false /\
  run (extractLabel E2Label "myvolume") = Return "myvolume" /\
  run (extractLabel DosFsLabel "myvolume") = Return "myvolume".
Proof.
  split; [reflexivity|].
  exact (proj1 (proj2 (proj2 (C6_extractLabel_first_line "myvolume"))) eq_refl).
Defined.

(** C6 as stated fails on an output that ends in a newline: the label comes
    back without the newline, not the input itself. *)
Lemma C6_counterexample :
  run (extractLabel E2Label ("myvolume" ++ String newline ""))
    = Return "myvolume" /\
  run (extractLabel E2Label ("myvolume" ++ String newline ""))
    <> Return ("myvolume" ++ String newline "") /\
  run (extractLabel DosFsLabel ("myvolume" ++ String newline ""))
    <> Return ("myvolume" ++ String newline "").
Proof. repeat split; discriminate. Qed.

(** C8. [E2Label.extractLabel] and [DosFsLabel.extractLabel] return on
    every input, the empty string included: the pattern matches every
    string, so no exception is raised. *)
Theorem C8_extractLabel_total (s : string) :
  Re.match_ whole_line_regex s <> None /\
  (exists l, run (extractLabel E2Label s) = Return l) /\
  (exists l, run (extractLabel DosFsLabel s) = Return l) /\
  (forall e, run (extractLabel E2Label s) <> Raise e) /\
  (forall e, run (extractLabel DosFsLabel s) <> Raise e) /\
  run (extractLabel E2Label "") = Return "" /\
  run (extractLabel DosFsLabel "") = Return "".
Proof.
  unfold run. rewrite whole_line_match.
  rewrite !extractLabel_whole_line by auto. cbn [fst].
  repeat split; try discriminate; now exists (first_line s).
Qed.

(** C9. [XFSAdmin.extractLabel] returns exactly on the inputs that start
    with the opening text of the pattern and have a further double quote
    before the first newline after it.  The label returned runs up to the
    last double quote of that line: it may hold double quotes itself, and
    whatever follows that quote is ignored.  An input that does not start
    with the opening text raises. *)
Theorem C9_xfs_extractLabel (s : string) :
  (forall l,
      run (extractLabel XFSAdmin s) = Return l <->
      exists tail,
        s = xfs_opening ++ l ++ String dquote tail /\
        has newline l = false /\
        has dquote (first_line tail) = false) /\
  ((exists l, run (extractLabel XFSAdmin s) = Return l) <->
   exists rest,
     s = xfs_opening ++ rest /\ has dquote (first_line rest) = true) /\
  (prefix xfs_opening s = false ->
   exists e, run (extractLabel XFSAdmin s) = Raise e) /\
  (forall l tail,
      has newline l = false ->
      has dquote (first_line tail) = false ->
      run (extractLabel XFSAdmin (xfs_opening ++ l ++ String dquote tail))
        = Return l).
Proof.
  split; [|split; [|split]].
  - intros l. apply extractLabel_xfs_Return.
  - apply extractLabel_xfs_succeeds.
  - intros H. exists (NameError "FSError").
    apply extractLabel_xfs_Raise. intros l Hl.
    apply extractLabel_xfs_Return in Hl as (tail & -> & _).
    rewrite (proj2 (prefix_correct _ _)) in H; [discriminate|].
    apply substring_app_l.
  - intros l tail Hn Hq. apply extractLabel_xfs_Return. now exists tail.
Qed.

Lemma C9_xfs_extractLabel_witness :
  prefix xfs_opening "garbage" = false /\
  (exists e, run (extractLabel XFSAdmin "garbage") = Raise e) /\
  has newline ("a" ++ String dquote "b") = false /\
  has dquote (first_line (" and more" ++ String newline "next line")) = false /\
  run (extractLabel XFSAdmin
         (xfs_opening ++ ("a" ++ String dquote "b")
            ++ String dquote (" and more" ++ String newline "next line")))
    = Return ("a" ++ String dquote "b").
Proof.
  split; [reflexivity|].
  split.
  - exact (proj1 (proj2 (proj2 (C9_xfs_extractLabel "garbage"))) eq_refl).
  - split; [reflexivity|]. split; [reflexivity|].
    exact (proj2 (proj2 (proj2 (C9_xfs_extractLabel "")))
             ("a" ++ String dquote "b")
             (" and more" ++ String newline "next line") eq_refl eq_refl).
Defined.

(** C2, as the code has it. [XFSAdmin.extractLabel] returns a captured
    label when the input starts with the opening text of the pattern,
    followed on the same line by a label and a closing double quote, and
    raises on every other input.  The output printed for the label vol1
    gives vol1, and the input garbage raises. *)
Theorem C2_xfs_extractLabel_anchored (s : string) :
  ((exists l tail,
       s = xfs_opening ++ l ++ String dquote tail /\ has newline l = false) ->
   exists l' tail',
     run (extractLabel XFSAdmin s) = Return l' /\
     s = xfs_opening ++ l' ++ String dquote tail') /\
  (~ (exists l tail,
         s = xfs_opening ++ l ++ String dquote tail /\ has newline l = false) ->
   exists e, run (extractLabel XFSAdmin s) = Raise e) /\
  run (extractLabel XFSAdmin xfs_vol1_output) = Return "vol1" /\
  (exists e, run (extractLabel XFSAdmin "garbage") = Raise e).
Proof.
  split; [|split; [|split]].
  - intros (l & tail & -> & Hn).
    assert (S : exists l', run (extractLabel XFSAdmin
                                  (xfs_opening ++ l ++ String dquote tail))
                           = Return l').
    { apply extractLabel_xfs_succeeds. exists (l ++ String dquote tail).
      split; [reflexivity|].
      rewrite first_line_app by exact Hn. rewrite has_app. simpl.
      apply orb_true_r. }
    destruct S as [l' H]. pose proof H as H'.
    apply extractLabel_xfs_Return in H' as (tail' & E & _).
    exists l', tail'. now split.
  - intros H. exists (NameError "FSError").
    apply extractLabel_xfs_Raise. intros l Hl.
    apply extractLabel_xfs_Return in Hl as (tail & E & Hn & _).
    apply H. now exists l, tail.
  - reflexivity.
  - now exists (NameError "FSError").
Qed.

Lemma C2_xfs_extractLabel_anchored_witness :
  (exists l tail,
      xfs_vol1_output = xfs_opening ++ l ++ String dquote tail /\
      has newline l = false) /\
  (exists l' tail',
      run (extractLabel XFSAdmin xfs_vol1_output) = Return l' /\
      xfs_vol1_output = xfs_opening ++ l' ++ String dquote tail').
Proof.
  assert (H : exists l tail,
             xfs_vol1_output = xfs_opening ++ l ++ String dquote tail /\
             has newline l = false)
    by (exists "vol1", ""; split; reflexivity).
  split; [exact H|].
  exact (proj1 (C2_xfs_extractLabel_anchored xfs_vol1_output) H).
Defined.

(** C2 as stated fails on an input that holds the quoted label after some
    other text: here after one space. *)
Lemma C2_counterexample :
  str_contains xfs_vol1_output (String " " xfs_vol1_output) = true /\
  run (extractLabel XFSAdmin (String " " xfs_vol1_output)) <> Return "vol1" /\
  (exists e, run (extractLabel XFSAdmin (String " " xfs_vol1_output)) = Raise e).
Proof.
  split; [reflexivity|].
  split; [discriminate|].
  now exists (NameError "FSError").
Qed.

(** C3, evaluated. [readLabelCommand] returns [e2label device],
    [dosfslabel device] and [xfs_admin -l device] for the three classes
    that read.  For [JFSTune] and [ReiserFSTune] the statement that should
    raise [FSError] raises [NameError] instead: the file binds no name
    [FSError]. *)
Theorem C3_readLabelCommand (fs : FS) :
  bound "FSError" = false /\
  run (readLabelCommand JFSTune fs) = Raise (NameError "FSError") /\
  run (readLabelCommand ReiserFSTune fs) = Raise (NameError "FSError") /\
  (forall a msg, run (readLabelCommand a fs) <> Raise (Exc "FSError" msg)) /\
  (forall a, (exists e, run (readLabelCommand a fs) = Raise e)
             <-> run (reads a) = Return false) /\
  run (readLabelCommand E2Label fs) = Return ["e2label"; device fs] /\
  run (readLabelCommand DosFsLabel fs) = Return ["dosfslabel"; device fs] /\
  run (readLabelCommand XFSAdmin fs) = Return ["xfs_admin"; "-l"; device fs].
Proof.
  repeat split; try (destruct a; discriminate).
  - intros [e H]. destruct a; (reflexivity || discriminate).
  - intros H. destruct a; try discriminate; now exists (NameError "FSError").
Qed.

(** C7, evaluated. [extractLabel] on [JFSTune] and [ReiserFSTune] never
    returns and never calls [re.match]: the test on [reads] comes first.
    The statement that should raise [FSError] there raises [NameError]
    instead: the file binds no name [FSError]. *)
Theorem C7_extractLabel_unreadable (s : string) :
  bound "FSError" = false /\
  run (extractLabel JFSTune s) = Raise (NameError "FSError") /\
  run (extractLabel ReiserFSTune s) = Raise (NameError "FSError") /\
  (forall l, run (extractLabel JFSTune s) <> Return l) /\
  (forall l, run (extractLabel ReiserFSTune s) <> Return l) /\
  (forall msg, run (extractLabel JFSTune s) <> Raise (Exc "FSError" msg)) /\
  (forall msg, run (extractLabel ReiserFSTune s) <> Raise (Exc "FSError" msg)).
Proof. repeat split; discriminate. Qed.

(** C10. Every operation of every class can be repeated: in any state, a
    second call with the same arguments gives the outcome of the first
    (the same value, or the same exception), and after each call the state
    is the one before it, so that the name, [reads], [unsetsLabel], the
    pattern and the verdict on any label of every class are what they
    were. *)
Theorem C10_operations_repeatable (a : app) (L : string) (fs : FS) (s : string) :
  repeatable (labelFormatOK a L) /\
  repeatable (setLabelCommand a fs) /\
  repeatable (readLabelCommand a fs) /\
  repeatable (extractLabel a s) /\
  (forall h b lbl,
      observe b lbl (snd (labelFormatOK a L h)) = observe b lbl h /\
      observe b lbl (snd (setLabelCommand a fs h)) = observe b lbl h /\
      observe b lbl (snd (readLabelCommand a fs h)) = observe b lbl h /\
      observe b lbl (snd (extractLabel a s h)) = observe b lbl h).
Proof.
  repeat split.
  - apply repeatable_of_preserving, labelFormatOK_preserves.
  - apply repeatable_of_preserving, setLabelCommand_preserves.
  - apply repeatable_of_preserving, readLabelCommand_preserves.
  - apply repeatable_of_preserving, extractLabel_preserves.
  - now rewrite labelFormatOK_preserves.
  - now rewrite setLabelCommand_preserves.
  - now rewrite readLabelCommand_preserves.
  - now rewrite extractLabel_preserves.
Qed.

(** * Further properties of the module *)

(** ** Helper facts *)

Lemma first_line_spec (s l : string) :
  first_line s = l <->
  has newline l = false /\ (s = l \/ exists rest, s = l ++ String newline rest).
Proof.
  split.
  - intros <-. split; [apply first_line_no_newline|].
    induction s as [|c s IH]; simpl; [now left|].
    destruct (Ascii.eqb c newline) eqn:E.
    + apply Ascii.eqb_eq in E. subst c. right. now exists s.
    + destruct IH as [IH | [rest IH]].
      * left. now rewrite <- IH.
      * right. exists rest. simpl. now rewrite <- IH.
  - intros [Hn [-> | [rest ->]]].
    + now apply has_false_first_line.
    + rewrite first_line_app by exact Hn. simpl. apply append_nil_r.
Qed.

Lemma first_line_length (s : string) :
  String.length (first_line s) <= String.length s.
Proof.
  induction s as [|c s IH]; simpl; [lia|].
  destruct (Ascii.eqb c newline); simpl; lia.
Qed.

(** A label that [extractLabel] returns holds no newline. *)
Lemma extractLabel_Return_no_newline (a : app) (s l : string) :
  run (extractLabel a s) = Return l -> has newline l = false.
Proof.
  destruct a.
  - unfold run. rewrite extractLabel_whole_line by auto.
    intros [= <-]. apply first_line_no_newline.
  - unfold run. rewrite extractLabel_whole_line by auto.
    intros [= <-]. apply first_line_no_newline.
  - discriminate.
  - discriminate.
  - intros H. now apply extractLabel_xfs_Return in H as (tail & _ & Hn & _).
Qed.

(** ** Writing a label *)

(** X1. [setLabelCommand] raises exactly when the class says it cannot unset
    a label ([unsetsLabel] is [False]) and the label of the filesystem is
    empty; in every other case it returns a command. *)
Theorem X1_setLabelCommand_raises_iff (a : app) (fs : FS) :
  ((exists e, run (setLabelCommand a fs) = Raise e) <->
   run (unsetsLabel a) = Return false /\ label fs = "") /\
  ((exists cmd, run (setLabelCommand a fs) = Return cmd) <->
   run (unsetsLabel a) = Return true \/ label fs <> "").
Proof.
  destruct fs as [dev [|c lbl]]; destruct a; cbn [label]; split; split;
    try (intros [x H]; discriminate H);
    try (intros [H1 H2]; discriminate);
    try (intros _; eexists; reflexivity);
    try (intros _; split; reflexivity);
    try (intros _; left; reflexivity);
    try (intros _; right; discriminate).
  intros [H | H]; [discriminate | now destruct H].
Qed.

(** X2. Whatever the [_name] attributes hold, a command returned by
    [setLabelCommand] starts with the current name of the class; after it
    come three or fewer arguments, among them the device and the label of
    the filesystem as they are, and nothing but the device, the label and
    the flags [-L] and [-l]. *)
Theorem X2_setLabelCommand_argv (h : heap) (a : app) (fs : FS) (cmd : list string) :
  fst (setLabelCommand a fs h) = Return cmd ->
  hd_error cmd = Some (h a) /\
  In (device fs) (tl cmd) /\
  In (label fs) (tl cmd) /\
  Forall (fun x => x = device fs \/ x = label fs \/ x = "-L" \/ x = "-l") (tl cmd) /\
  (List.length cmd = 3 \/ List.length cmd = 4).
Proof.
  destruct fs as [dev [|c lbl]]; destruct a; cbn; intros H;
    try discriminate H; injection H as <-; cbn;
    repeat split; auto 10; repeat constructor; auto.
Qed.

Lemma X2_setLabelCommand_argv_witness :
  fst (setLabelCommand JFSTune sda1_vol1 (fun _ => "/sbin/jfs_tune"))
    = Return ["/sbin/jfs_tune"; "-L"; "vol1"; "/dev/sda1"] /\
  hd_error ["/sbin/jfs_tune"; "-L"; "vol1"; "/dev/sda1"] = Some "/sbin/jfs_tune".
Proof.
  split; [reflexivity|].
  exact (proj1 (X2_setLabelCommand_argv (fun _ => "/sbin/jfs_tune") JFSTune
                  sda1_vol1 _ eq_refl)).
Defined.

(** ** Reading a label *)

(** X3. The members that only make sense for a class that reads agree with
    [reads]: [_readLabelArgs] and [_labelstrRegex] raise
    [NotImplementedError] exactly for the classes whose [reads] is [False],
    and return for the others. *)
Theorem X3_read_members_agree_with_reads (a : app) (fs : FS) :
  (run (reads a) = Return false <->
   run (_readLabelArgs a fs) = Raise (Exc "NotImplementedError" "")) /\
  (run (reads a) = Return false <->
   run (_labelstrRegex a) = Raise (Exc "NotImplementedError" "")) /\
  (run (reads a) = Return true <->
   exists args, run (_readLabelArgs a fs) = Return args) /\
  (run (reads a) = Return true <->
   exists rx, run (_labelstrRegex a) = Return rx).
Proof.
  destruct a; repeat split; try discriminate; try reflexivity;
    try (intros [x H]; discriminate H);
    try (intros _; eexists; reflexivity).
Qed.

(** X4. The exceptions that leave the three public methods.
    [setLabelCommand] raises nothing but the [ValueError] of [XFSAdmin] on
    an empty label.  [readLabelCommand] and [extractLabel] raise nothing
    but the [NameError] for [FSError]: the [NotImplementedError] of
    [_readLabelArgs] and [_labelstrRegex] is never reached, because the
    test on [reads] comes first. *)
Theorem X4_exceptions_raised (a : app) (fs : FS) (s : string) (e : exn) :
  (run (setLabelCommand a fs) = Raise e ->
   a = XFSAdmin /\ label fs = "" /\
   e = Exc "ValueError" "xfs_admin cannot set an empty label.") /\
  (run (readLabelCommand a fs) = Raise e ->
   run (reads a) = Return false /\ e = NameError "FSError") /\
  (run (extractLabel a s) = Raise e -> e = NameError "FSError").
Proof.
  split; [|split].
  - destruct fs as [dev [|c lbl]]; destruct a; cbn; intros H;
      try discriminate H; injection H as <-; auto.
  - destruct a; cbn; intros H; try discriminate H; injection H as <-; auto.
  - unfold run. destruct a.
    + rewrite extractLabel_whole_line by auto. discriminate.
    + rewrite extractLabel_whole_line by auto. discriminate.
    + rewrite extractLabel_unreadable by auto. now intros [= <-].
    + rewrite extractLabel_unreadable by auto. now intros [= <-].
    + rewrite extractLabel_xfs. cbn [fst].
      destruct (strip_prefix xfs_opening s) as [t|]; [|now intros [= <-]].
      destruct (before_last_quote t); [discriminate | now intros [= <-]].
Qed.

Lemma X4_exceptions_raised_witness :
  run (setLabelCommand XFSAdmin sda1_unlabelled)
    = Raise (Exc "ValueError" "xfs_admin cannot set an empty label.") /\
  XFSAdmin = XFSAdmin /\ label sda1_unlabelled = "" /\
  Exc "ValueError" "xfs_admin cannot set an empty label."
    = Exc "ValueError" "xfs_admin cannot set an empty label.".
Proof.
  split; [reflexivity|].
  exact (proj1 (X4_exceptions_raised XFSAdmin sda1_unlabelled "" _) eq_refl).
Defined.

(** X11. The command of [readLabelCommand] does not depend on the label of
    the filesystem; when it is returned it starts with the name of the
    program and ends with the device. *)
Theorem X11_readLabelCommand_ignores_label (a : app) (fs : FS) (lbl' : string) :
  run (readLabelCommand a fs) = run (readLabelCommand a (mkFS (device fs) lbl')) /\
  (forall cmd,
      run (readLabelCommand a fs) = Return cmd ->
      hd_error cmd = Some (initial_heap a) /\ last cmd "" = device fs).
Proof.
  split.
  - destruct a; reflexivity.
  - intros cmd. destruct a; cbn; intros H; try discriminate H;
      injection H as <-; split; reflexivity.
Qed.

Lemma X11_readLabelCommand_ignores_label_witness :
  run (readLabelCommand XFSAdmin sda1_vol1)
    = Return ["xfs_admin"; "-l"; "/dev/sda1"] /\
  last ["xfs_admin"; "-l"; "/dev/sda1"] "" = device sda1_vol1.
Proof.
  split; [reflexivity|].
  exact (proj2 (proj2 (X11_readLabelCommand_ignores_label XFSAdmin sda1_vol1 "")
                  _ eq_refl)).
Defined.

(** ** Validating a label *)

(** X5. The labels a class accepts are closed under cutting: when
    [labelFormatOK] accepts a text it accepts every piece the text is put
    together from, down to the empty label, which every class accepts. *)
Theorem X5_labelFormatOK_pieces (a : app) (L1 L2 : string) :
  run (labelFormatOK a "") = Return true /\
  (run (labelFormatOK a (L1 ++ L2)) = Return true ->
   run (labelFormatOK a L1) = Return true /\
   run (labelFormatOK a L2) = Return true).
Proof.
  split; [now destruct a|].
  destruct a; unfold run; cbn [labelFormatOK ret fst]; intros [= H];
    try (apply Nat.ltb_lt in H; rewrite length_app in H;
         split; f_equal; apply Nat.ltb_lt; lia).
  apply andb_true_iff in H as [Hs Hl].
  apply negb_true_iff in Hs. rewrite str_contains_space, has_app in Hs.
  apply orb_false_iff in Hs as [Hs1 Hs2].
  apply Nat.ltb_lt in Hl. rewrite length_app in Hl.
  rewrite !str_contains_space, Hs1, Hs2. cbn [negb andb].
  split; f_equal; apply Nat.ltb_lt; lia.
Qed.

Lemma X5_labelFormatOK_pieces_witness :
  run (labelFormatOK XFSAdmin ("nospace" ++ "12")) = Return true /\
  run (labelFormatOK XFSAdmin "nospace") = Return true /\
  run (labelFormatOK XFSAdmin "12") = Return true.
Proof.
  split; [reflexivity|].
  exact (proj2 (X5_labelFormatOK_pieces XFSAdmin "nospace" "12") eq_refl).
Defined.

(** X6. How the five rules compare.  A label that any class accepts is
    accepted by [E2Label], [JFSTune] and [ReiserFSTune]; a label without a
    space that [DosFsLabel] accepts is accepted by all five classes. *)
Theorem X6_labelFormatOK_order (L : string) :
  (forall a,
      run (labelFormatOK a L) = Return true ->
      run (labelFormatOK E2Label L) = Return true /\
      run (labelFormatOK JFSTune L) = Return true /\
      run (labelFormatOK ReiserFSTune L) = Return true) /\
  (run (labelFormatOK DosFsLabel L) = Return true ->
   has " "%char L = false ->
   forall a, run (labelFormatOK a L) = Return true).
Proof.
  split.
  - intros a. destruct a; unfold run; cbn [labelFormatOK ret fst]; intros [= H];
      try (apply andb_true_iff in H as [_ H]);
      apply Nat.ltb_lt in H;
      repeat split; f_equal; apply Nat.ltb_lt; lia.
  - unfold run; cbn [labelFormatOK ret fst]. intros [= H] Hs a.
    apply Nat.ltb_lt in H.
    destruct a; cbn [labelFormatOK ret fst];
      rewrite ?str_contains_space, ?Hs; cbn [negb andb];
      f_equal; apply Nat.ltb_lt; lia.
Qed.

Lemma X6_labelFormatOK_order_witness :
  (run (labelFormatOK XFSAdmin "nospace12") = Return true /\
   run (labelFormatOK E2Label "nospace12") = Return true) /\
  (run (labelFormatOK DosFsLabel "BOOT") = Return true /\
   has " "%char "BOOT" = false /\
   run (labelFormatOK XFSAdmin "BOOT") = Return true).
Proof.
  split.
  - split; [reflexivity|].
    exact (proj1 (proj1 (X6_labelFormatOK_order "nospace12") XFSAdmin eq_refl)).
  - split; [reflexivity|]. split; [reflexivity|].
    exact (proj2 (X6_labelFormatOK_order "BOOT") eq_refl eq_refl XFSAdmin).
Defined.

(** ** Parsing the output of the program *)

(** X7. The labels [extractLabel] can return.  For a class that reads, a
    text is the result of [extractLabel] on some input exactly when it holds
    no newline; for a class that does not read, nothing is. *)
Theorem X7_extractLabel_range (a : app) (L : string) :
  (exists s, run (extractLabel a s) = Return L) <->
  run (reads a) = Return true /\ has newline L = false.
Proof.
  split.
  - intros [s H]. split.
    + destruct a; try reflexivity; discriminate H.
    + exact (extractLabel_Return_no_newline a s L H).
  - intros [Hr Hn]. destruct a; try discriminate Hr.
    + exists L. unfold run. rewrite extractLabel_whole_line by auto.
      cbn [fst]. f_equal. now apply has_false_first_line.
    + exists L. unfold run. rewrite extractLabel_whole_line by auto.
      cbn [fst]. f_equal. now apply has_false_first_line.
    + exists (xfs_opening ++ L ++ String dquote "").
      apply extractLabel_xfs_Return. now exists "".
Qed.

(** X8. For [E2Label] and [DosFsLabel], [extractLabel] applied to a label it
    has returned gives that label again, and the label is never longer than
    the input. *)
Theorem X8_extractLabel_idempotent (a : app) (s l : string) :
  a = E2Label \/ a = DosFsLabel ->
  run (extractLabel a s) = Return l ->
  run (extractLabel a l) = Return l /\ String.length l <= String.length s.
Proof.
  intros Ha. unfold run. rewrite !extractLabel_whole_line by exact Ha.
  cbn [fst]. intros [= <-]. split.
  - f_equal. apply has_false_first_line, first_line_no_newline.
  - apply first_line_length.
Qed.

Lemma X8_extractLabel_idempotent_witness :
  (E2Label = E2Label \/ E2Label = DosFsLabel) /\
  run (extractLabel E2Label ("myvolume" ++ String newline "")) = Return "myvolume" /\
  run (extractLabel E2Label "myvolume") = Return "myvolume".
Proof.
  split; [now left|]. split; [reflexivity|].
  exact (proj1 (X8_extractLabel_idempotent E2Label
                  ("myvolume" ++ String newline "") "myvolume"
                  (or_introl eq_refl) eq_refl)).
Defined.

(** X9. What [E2Label.extractLabel] and [DosFsLabel.extractLabel] return,
    said without the matcher: [l] is returned for the input [s] exactly
    when [l] holds no newline and [s] is [l], or [l] followed by a newline
    and anything. *)
Theorem X9_extractLabel_whole_line_spec (a : app) (s l : string) :
  a = E2Label \/ a = DosFsLabel ->
  (run (extractLabel a s) = Return l <->
   has newline l = false /\
   (s = l \/ exists rest, s = l ++ String newline rest)).
Proof.
  intros Ha. unfold run. rewrite extractLabel_whole_line by exact Ha.
  cbn [fst]. rewrite <- first_line_spec.
  split; [now intros [= ->] | now intros ->].
Qed.

Lemma X9_extractLabel_whole_line_spec_witness :
  (DosFsLabel = E2Label \/ DosFsLabel = DosFsLabel) /\
  run (extractLabel DosFsLabel ("BOOT" ++ String newline "more")) = Return "BOOT".
Proof.
  split; [now right|].
  apply (proj2 (X9_extractLabel_whole_line_spec DosFsLabel
                  ("BOOT" ++ String newline "more") "BOOT" (or_intror eq_refl))).
  split; [reflexivity|]. right. now exists "more".
Defined.

(** X10. Validation and parsing do not agree on newlines: a short label
    without a space is accepted by [labelFormatOK] of every class even when
    it holds a newline, and no [extractLabel] ever returns such a label. *)
Theorem X10_newline_label (L : string) :
  has newline L = true ->
  String.length L < 12 ->
  has " "%char L = false ->
  (forall a, run (labelFormatOK a L) = Return true) /\
  (forall a s, run (extractLabel a s) <> Return L).
Proof.
  intros Hn Hl Hs. split.
  - intros a. unfold run.
    destruct a; cbn [labelFormatOK ret fst];
      rewrite ?str_contains_space, ?Hs; cbn [negb andb];
      f_equal; apply Nat.ltb_lt; lia.
  - intros a s H. apply extractLabel_Return_no_newline in H. congruence.
Qed.

Lemma X10_newline_label_witness :
  has newline ("a" ++ String newline "b") = true /\
  String.length ("a" ++ String newline "b") < 12 /\
  has " "%char ("a" ++ String newline "b") = false /\
  run (labelFormatOK XFSAdmin ("a" ++ String newline "b")) = Return true.
Proof.
  assert (Hl : String.length ("a" ++ String newline "b") < 12) by (simpl; lia).
  split; [reflexivity|]. split; [exact Hl|]. split; [reflexivity|].
  exact (proj1 (X10_newline_label ("a" ++ String newline "b") eq_refl Hl eq_refl)
           XFSAdmin).
Defined.

Lemma first_line_idempotent (s : string) : first_line (first_line s) = first_line s.
Proof. apply has_false_first_line, first_line_no_newline. Qed.

Lemma strip_prefix_first_line (a s : string) :
  has newline a = false ->
  strip_prefix a (first_line s) = option_map first_line (strip_prefix a s).
Proof.
  revert s. induction a as [|x a IH]; intros s Hn; [reflexivity|].
  simpl in Hn. apply orb_false_iff in Hn as [Hx Ha].
  destruct s as [|c s]; [reflexivity|].
  cbn [first_line strip_prefix].
  destruct (Ascii.eqb c newline) eqn:E.
  - apply Ascii.eqb_eq in E. subst c. now rewrite Hx.
  - cbn [strip_prefix]. destruct (Ascii.eqb x c); [now apply IH | reflexivity].
Qed.

Lemma before_last_quote_first_line (t : string) :
  before_last_quote (first_line t) = before_last_quote t.
Proof.
  induction t as [|c t IH]; [reflexivity|].
  cbn [first_line before_last_quote].
  destruct (Ascii.eqb c newline) eqn:E; [reflexivity|].
  cbn [before_last_quote]. now rewrite E, IH.
Qed.

(** X12. Only the first line of the output counts: for every class,
    [extractLabel] gives on an input what it gives on the text of that input
    before its first newline. *)
Theorem X12_extractLabel_first_line_only (a : app) (s : string) :
  run (extractLabel a s) = run (extractLabel a (first_line s)).
Proof.
  unfold run. destruct a.
  - rewrite !extractLabel_whole_line by auto. cbn [fst].
    now rewrite first_line_idempotent.
  - rewrite !extractLabel_whole_line by auto. cbn [fst].
    now rewrite first_line_idempotent.
  - reflexivity.
  - reflexivity.
  - rewrite !extractLabel_xfs. cbn [fst].
    rewrite strip_prefix_first_line by reflexivity.
    destruct (strip_prefix xfs_opening s) as [t|]; cbn [option_map]; [|reflexivity].
    now rewrite before_last_quote_first_line.
Qed.
